(** * FluidDev: fisheye pixel / unit-sphere conversions

    A shallow embedding of [spherical_objects.py].  Python numbers are
    embedded as follows: the integers of the Cartesian shapes
    ([List[int]], [Tuple[int, int]]) are [Z], so that [//] is floor
    division on [Z]; every value that has gone through [/], [math.sqrt],
    [math.sin], [math.cos] or [math.acos] is a real number of the Standard
    Library, i.e. the arithmetic is the exact one (rounding and overflow
    of IEEE doubles are not part of this model).  Python exceptions are
    values of [exn], threaded through an error monad.

    The round trip pixel -> sphere -> pixel is sensitive to rounding, so
    the two elementary transforms are embedded a second time, in module
    [Double], over the binary64 numbers of [PrimFloat], with the C
    library behind [math.sin], [math.cos] and [math.acos] as a
    parameter. *)

From Stdlib Require Import Floats.
From Stdlib Require Import Reals Lra Lia ZArith List String Bool PeanoNat.
Import ListNotations.

Set Warnings "-inexact-float".

(** ** Exceptions and the error monad *)

(** The three ways a [ValueError] is raised along the modelled paths. *)
Inductive value_error : Type :=
| BadDimension (observed : nat)   (* convert_point, line 46 *)
| MathDomain                      (* math.acos / math.sqrt *)
| Unpack (observed : nat).        (* [x, y, w, h = points] with len <> 4 *)

Inductive exn : Type :=
| ValueError (e : value_error)
| ZeroDivisionError
| IndexError
| AssertionError (msg : string).

Inductive result (A : Type) : Type :=
| Ok (a : A)
| Raise (e : exn).

Arguments Ok {A} a.
Arguments Raise {A} e.

Definition bind {A B : Type} (m : result A) (k : A -> result B) : result B :=
  match m with
  | Ok a => k a
  | Raise e => Raise e
  end.

Notation "x <- m ;; k" := (bind m (fun x => k))
  (at level 61, m at next level, right associativity).
Notation "' p <- m ;; k" := (bind m (fun x => let 'p := x in k))
  (at level 61, p pattern, m at next level, right associativity).

(** [[f(v) for v in l]]: left to right, stopping at the first exception. *)
Fixpoint mapM {A B : Type} (g : A -> result B) (l : list A) : result (list B) :=
  match l with
  | [] => Ok []
  | a :: l' => b <- g a ;; bs <- mapM g l' ;; Ok (b :: bs)
  end.

(** ** Python primitives *)

Open Scope R_scope.

(** [l[i]] *)
Definition getitem {A : Type} (l : list A) (i : nat) : result A :=
  match nth_error l i with
  | Some a => Ok a
  | None => Raise IndexError
  end.

(** [a != b] on numbers *)
Definition Rneb (a b : R) : bool :=
  if Req_dec_T a b then false else true.

(** [a / b] *)
Definition truediv (a b : R) : result R :=
  if Req_dec_T b 0 then Raise ZeroDivisionError else Ok (a / b).

(** [math.sqrt]: a negative argument is a domain error. *)
Definition math_sqrt (x : R) : result R :=
  if Rlt_dec x 0 then Raise (ValueError MathDomain) else Ok (sqrt x).

(** [math.acos]: an argument outside [-1, 1] is a domain error. *)
Definition math_acos (x : R) : result R :=
  if Rle_dec (-1) x then
    if Rle_dec x 1 then Ok (acos x) else Raise (ValueError MathDomain)
  else Raise (ValueError MathDomain).

(** [x, y, w, h = points] *)
Definition unpack4 {A : Type} (l : list A) : result (A * A * A * A) :=
  match l with
  | [a; b; c; d] => Ok (a, b, c, d)
  | _ => Raise (ValueError (Unpack (List.length l)))
  end.

(** A Python string object: its characters, and whether it is the
    interned object for these characters.  String literals of the module
    are interned, so a literal is the unique interned object with its
    characters; a string built at run time is a different object. *)
Record pystr : Type := mk_pystr {
  str_value : string;
  str_interned : bool
}.

Definition literal (s : string) : pystr :=
  {| str_value := s; str_interned := true |}.

(** [a == b] *)
Definition str_eqb (a b : pystr) : bool :=
  String.eqb (str_value a) (str_value b).

(** [a is 'lit'] for a literal of the module *)
Definition is_literal (a : pystr) (lit : string) : bool :=
  str_interned a && String.eqb (str_value a) lit.

(** [a in [l1, ..., ln]] (equality on each element) *)
Definition str_in (a : pystr) (l : list pystr) : bool :=
  existsb (str_eqb a) l.

(** ** Lens constants (lines 7-9) *)

Definition f : R := 714.285714.
Definition center : list R := [960; 540].
Definition D : R := 1.082984.

(** ** Elementary transforms *)

(** [cartesian2sphere], lines 12-26. *)
Definition cartesian2sphere (pt : list R) : result (list R) :=
  p0 <- getitem pt 0 ;;
  c0 <- getitem center 0 ;;
  x <- truediv (p0 - c0) f ;;
  p1 <- getitem pt 1 ;;
  c1 <- getitem center 1 ;;
  y <- truediv (p1 - c1) f ;;
  r <- math_sqrt (x * x + y * y) ;;
  '(x, y) <- (if Rneb r 0
              then x' <- truediv x r ;; y' <- truediv y r ;; Ok (x', y')
              else Ok (x, y)) ;;
  let r := r * D in
  let sin_theta := sin r in
  let x := x * sin_theta in
  let y := y * sin_theta in
  let z := cos r in
  Ok [x; y; z].

(** [sphere2cartesian], lines 29-36. *)
Definition sphere2cartesian (pt : list R) : result (list R) :=
  p2 <- getitem pt 2 ;;
  r <- math_acos p2 ;;
  r <- truediv r D ;;
  r <- (if Rneb p2 1
        then s <- math_sqrt (1 - p2 * p2) ;; truediv r s
        else Ok r) ;;
  p0 <- getitem pt 0 ;;
  c0 <- getitem center 0 ;;
  let x := r * p0 * f + c0 in
  p1 <- getitem pt 1 ;;
  c1 <- getitem center 1 ;;
  let y := r * p1 * f + c1 in
  Ok [x; y].

(** [convert_point], lines 39-46. *)
Definition convert_point (point : list R) : result (list R) :=
  if Nat.eqb (List.length point) 2 then cartesian2sphere point
  else if Nat.eqb (List.length point) 3 then sphere2cartesian point
  else Raise (ValueError (BadDimension (List.length point))).

(** ** Bounding boxes *)

(** [CartesianBbox], lines 49-55. *)
Record CartesianBbox : Type := mk_CartesianBbox {
  cb_points : list Z;
  cb_fmt : pystr
}.

(** [fmt in ['xyxy', 'xywh', 'cxcywh']], line 52 *)
Definition fmt_is_valid (fmt : pystr) : bool :=
  str_in fmt [literal "xyxy"; literal "xywh"; literal "cxcywh"].

Definition CartesianBbox_init (points : list Z) (fmt : pystr)
  : result CartesianBbox :=
  if negb (fmt_is_valid fmt)
  then Raise (AssertionError "Invalid bbox format")
  else if negb (Nat.eqb (List.length points) 4)
  then Raise (AssertionError "Cartesian bbox must have 4 values")
  else Ok {| cb_points := points; cb_fmt := fmt |}.

(** [SphericalBbox], lines 58-75. *)
Definition POINTS_LEN : nat := 6.

Record SphericalBbox : Type := mk_SphericalBbox {
  sb_points : list R
}.

Definition SphericalBbox_init (points : list R) : result SphericalBbox :=
  if negb (Nat.eqb (List.length points) POINTS_LEN)
  then Raise (AssertionError "Spherical bbox must have 6 values")
  else Ok {| sb_points := points |}.

(** [_bbox_to_spherical], lines 78-83.  The corners are integers; they
    enter the real arithmetic of [cartesian2sphere] through [IZR]. *)
Definition _bbox_to_spherical (bbox : list Z) : result SphericalBbox :=
  upper_left <- convert_point (map IZR (firstn 2 bbox)) ;;
  lower_right <- convert_point (map IZR (skipn 2 bbox)) ;;
  SphericalBbox_init (upper_left ++ lower_right).

(** [xywh_to_xxyy], lines 86-88. *)
Definition xywh_to_xxyy (points : list Z) : result (list Z) :=
  '(x, y, w, h) <- unpack4 points ;;
  Ok [x; y; x + w; y + h]%Z.

(** [cxcywh_to_xxyy], lines 91-94; [//] is [Z.div], which rounds down. *)
Definition cxcywh_to_xxyy (points : list Z) : result (list Z) :=
  '(cx, cy, w, h) <- unpack4 points ;;
  let '(w, h) := (w / 2, h / 2)%Z in
  Ok [cx - w; cy - h; cx + w; cy + h]%Z.

(** The value bound to the local [bbox_xxyy] of [bbox_to_spherical],
    lines 107-112: the tag is compared with [is]. *)
Definition bbox_xxyy (cartesian : CartesianBbox) : result (list Z) :=
  if is_literal (cb_fmt cartesian) "xywh"
  then xywh_to_xxyy (cb_points cartesian)
  else if is_literal (cb_fmt cartesian) "cxcywh"
  then cxcywh_to_xxyy (cb_points cartesian)
  else Ok (cb_points cartesian).

(** [bbox_to_spherical], lines 97-115. *)
Definition bbox_to_spherical (cartesian : CartesianBbox)
  : result SphericalBbox :=
  xxyy <- bbox_xxyy cartesian ;;
  _bbox_to_spherical xxyy.

(** ** Polygons *)

Definition MIN_POLY_LEN : nat := 3.

(** [CartesianPolygon], lines 118-140.  A vertex is the sequence of its
    coordinates: Python does not check that it is a pair. *)
Record CartesianPolygon : Type := mk_CartesianPolygon {
  cp_contour : list (list Z);
  cp_num_vertex : nat
}.

Definition CartesianPolygon_init (contour : list (list Z))
  : result CartesianPolygon :=
  if negb (Nat.leb MIN_POLY_LEN (List.length contour))
  then Raise (AssertionError "We need at least 3 points to form a polygon")
  else Ok {| cp_contour := contour; cp_num_vertex := List.length contour |}.

(** [SphericalPolygon], lines 143-159. *)
Record SphericalPolygon : Type := mk_SphericalPolygon {
  sp_contour : list (list R);
  sp_num_vertex : nat
}.

Definition SphericalPolygon_init (contour : list (list R))
  : result SphericalPolygon :=
  if negb (Nat.leb MIN_POLY_LEN (List.length contour))
  then Raise (AssertionError "We need at least 3 points to form a polygon")
  else Ok {| sp_contour := contour; sp_num_vertex := List.length contour |}.

(** [polygon_to_spherical], lines 162-173. *)
Definition polygon_to_spherical (cartesian : CartesianPolygon)
  : result SphericalPolygon :=
  spherical_contour <-
    mapM (fun point => convert_point (map IZR point)) (cp_contour cartesian) ;;
  SphericalPolygon_init spherical_contour.

(** The three boxes and the contour built by [main], lines 180-190. *)
Definition main_bbox1 : list (result CartesianBbox) :=
  [ CartesianBbox_init [100; 150; 150; 200]%Z (literal "xyxy");
    CartesianBbox_init [100; 150; 50; 50]%Z (literal "xywh");
    CartesianBbox_init [125; 175; 50; 50]%Z (literal "cxcywh") ].

Definition main_contour : list (list Z) :=
  [ [100; 100]; [80; 150]; [50; 75]; [90; 25] ]%Z.

(** ** Quantities the properties are stated with *)

(** The value of the local [r] of [cartesian2sphere] after line 16, for
    the pixel [(px, py)]. *)
Definition pixel_radius (px py : R) : R :=
  sqrt ((px - 960) / f * ((px - 960) / f) + (py - 540) / f * ((py - 540) / f)).

(** Squared Euclidean norm and Euclidean norm of a point. *)
Definition sq_norm (v : list R) : R :=
  fold_right (fun a acc => a * a + acc) 0 v.

Definition norm (v : list R) : R := sqrt (sq_norm v).

(** Componentwise closeness of two points, as an absolute tolerance. *)
Definition close_to (tol : R) (p q : list R) : Prop :=
  Forall2 (fun a b => Rabs (a - b) <= tol) p q.

(** ** The elementary transforms in binary64 arithmetic *)

Module Double.

Local Open Scope float_scope.

(** The C library functions that [math.sin], [math.cos] and [math.acos]
    call.  IEEE 754 does not fix their results, so they are a parameter
    of the embedding; [+], [-], [*], [/] and [sqrt] are the correctly
    rounded operations of [PrimFloat]. *)
Record libm : Type := mk_libm {
  libm_sin : float -> float;
  libm_cos : float -> float;
  libm_acos : float -> float
}.


(** Lens constants (lines 7-9), as the doubles nearest to the literals. *)
Definition f : float := 714.285714.
Definition center : list float := [960; 540].
Definition D : float := 1.082984.


(** The wrapper of the [math] module around a C function of one
    argument: a NaN result of a non-NaN argument, or an infinite result
    of a finite argument, is a [ValueError] (math domain error). *)
Definition math_1 (func : float -> float) (x : float) : result float :=
  let r := func x in
  if (PrimFloat.is_nan r && negb (PrimFloat.is_nan x))
     || (PrimFloat.is_infinity r && PrimFloat.is_finite x)
  then Raise (ValueError MathDomain)
  else Ok r.

(** [a / b] on floats *)
Definition truediv (a b : float) : result float :=
  if b =? 0 then Raise ZeroDivisionError else Ok (a / b).

(** [cartesian2sphere], lines 12-26, on doubles. *)
Definition cartesian2sphere (m : libm) (pt : list float)
  : result (list float) :=
  p0 <- getitem pt 0 ;;
  c0 <- getitem center 0 ;;
  x <- truediv (p0 - c0) f ;;
  p1 <- getitem pt 1 ;;
  c1 <- getitem center 1 ;;
  y <- truediv (p1 - c1) f ;;
  r <- math_1 PrimFloat.sqrt (x * x + y * y) ;;
  '(x, y) <- (if negb (r =? 0)
              then x' <- truediv x r ;; y' <- truediv y r ;; Ok (x', y')
              else Ok (x, y)) ;;
  let r := r * D in
  sin_theta <- math_1 (libm_sin m) r ;;
  let x := x * sin_theta in
  let y := y * sin_theta in
  z <- math_1 (libm_cos m) r ;;
  Ok [x; y; z].

(** [sphere2cartesian], lines 29-36, on doubles. *)
Definition sphere2cartesian (m : libm) (pt : list float)
  : result (list float) :=
  p2 <- getitem pt 2 ;;
  r <- math_1 (libm_acos m) p2 ;;
  r <- truediv r D ;;
  r <- (if negb (p2 =? 1)
        then s <- math_1 PrimFloat.sqrt (1 - p2 * p2) ;; truediv r s
        else Ok r) ;;
  p0 <- getitem pt 0 ;;
  c0 <- getitem center 0 ;;
  let x := r * p0 * f + c0 in
  p1 <- getitem pt 1 ;;
  c1 <- getitem center 1 ;;
  let y := r * p1 * f + c1 in
  Ok [x; y].

(** The value of the local [r] of [cartesian2sphere] after line 16. *)
Definition pixel_radius (px py : float) : float :=
  PrimFloat.sqrt ((px - 960) / f * ((px - 960) / f)
                  + (py - 540) / f * ((py - 540) / f)).

(** [abs(a - b) <= tol] on every coordinate. *)
Fixpoint close_to (tol : float) (p q : list float) : bool :=
  match p, q with
  | [], [] => true
  | a :: p', b :: q' => (PrimFloat.abs (a - b) <=? tol) && close_to tol p' q'
  | _, _ => false
  end.

End Double.

(** * Properties *)

(** ** Facts about the primitives *)

Lemma f_pos : 0 < f.
Proof. unfold f; lra. Qed.

Lemma D_pos : 0 < D.
Proof. unfold D; lra. Qed.

Lemma truediv_ok (a b : R) : b <> 0 -> truediv a b = Ok (a / b).
Proof.
  intros Hb; unfold truediv.
  destruct (Req_dec_T b 0) as [E | _]; [contradiction | reflexivity].
Qed.

Lemma truediv_zero (a : R) : truediv a 0 = Raise ZeroDivisionError.
Proof.
  unfold truediv.
  destruct (Req_dec_T 0 0) as [_ | N]; [reflexivity | now elim N].
Qed.

Lemma Rneb_true (a b : R) : a <> b -> Rneb a b = true.
Proof.
  intros N; unfold Rneb.
  destruct (Req_dec_T a b); [contradiction | reflexivity].
Qed.

Lemma Rneb_refl (a : R) : Rneb a a = false.
Proof.
  unfold Rneb.
  destruct (Req_dec_T a a) as [_ | N]; [reflexivity | now elim N].
Qed.

Lemma math_sqrt_ok (x : R) : 0 <= x -> math_sqrt x = Ok (sqrt x).
Proof.
  intros Hx; unfold math_sqrt.
  destruct (Rlt_dec x 0); [lra | reflexivity].
Qed.

Lemma math_acos_ok (x : R) : -1 <= x <= 1 -> math_acos x = Ok (acos x).
Proof.
  intros [Hl Hu]; unfold math_acos.
  destruct (Rle_dec (-1) x); [| contradiction].
  destruct (Rle_dec x 1); [reflexivity | contradiction].
Qed.

Lemma math_acos_domain (x : R) :
  1 < Rabs x -> math_acos x = Raise (ValueError MathDomain).
Proof.
  intros Hx; unfold math_acos.
  destruct (Rle_dec (-1) x) as [Hl | _]; [| reflexivity].
  destruct (Rle_dec x 1) as [Hu | _]; [| reflexivity].
  assert (Rabs x <= 1) by (apply Rabs_le; lra). lra.
Qed.

(** ** The radius of a pixel, as [cartesian2sphere] computes it *)

Lemma pixel_radius_nonneg (px py : R) : 0 <= pixel_radius px py.
Proof. apply sqrt_pos. Qed.

Lemma sum_squares_nonneg (x y : R) : 0 <= x * x + y * y.
Proof. nra. Qed.

(** What [cartesian2sphere] returns on a pair, branch by branch. *)
Lemma cartesian2sphere_pair (px py : R) :
  cartesian2sphere [px; py] =
  let x := (px - 960) / f in
  let y := (py - 540) / f in
  let r := pixel_radius px py in
  if Rneb r 0
  then Ok [x / r * sin (r * D); y / r * sin (r * D); cos (r * D)]
  else Ok [x * sin (r * D); y * sin (r * D); cos (r * D)].
Proof.
  pose proof f_pos as Hf.
  unfold cartesian2sphere, center, pixel_radius; cbn [getitem nth_error bind].
  rewrite !truediv_ok by lra; cbn [bind].
  rewrite math_sqrt_ok by apply sum_squares_nonneg; cbn [bind].
  set (r := sqrt _).
  unfold Rneb. destruct (Req_dec_T r 0) as [E | N].
  - reflexivity.
  - rewrite !truediv_ok by assumption. reflexivity.
Qed.

Lemma pixel_radius_center : pixel_radius 960 540 = 0.
Proof.
  unfold pixel_radius.
  replace ((960 - 960) / f) with 0 by (unfold Rdiv; ring).
  replace ((540 - 540) / f) with 0 by (unfold Rdiv; ring).
  replace (0 * 0 + 0 * 0) with 0 by ring.
  apply sqrt_0.
Qed.

(** The radius squared is the squared distance to the principal point,
    in focal-length units. *)
Lemma pixel_radius_sqr (px py : R) :
  pixel_radius px py * pixel_radius px py =
  (px - 960) / f * ((px - 960) / f) + (py - 540) / f * ((py - 540) / f).
Proof. unfold pixel_radius. apply sqrt_sqrt, sum_squares_nonneg. Qed.

(** ** Norms of points *)


(** On every pixel [cartesian2sphere] returns three coordinates whose
    squares add up to one. *)
Lemma cartesian2sphere_on_sphere (px py : R) :
  exists x y z,
    cartesian2sphere [px; py] = Ok [x; y; z] /\ x * x + y * y + z * z = 1.
Proof.
  rewrite cartesian2sphere_pair; cbv zeta.
  pose proof (pixel_radius_sqr px py) as Hr.
  set (r := pixel_radius px py) in *.
  set (x := (px - 960) / f) in *. set (y := (py - 540) / f) in *.
  pose proof (sin2_cos2 (r * D)) as Hsc; unfold Rsqr in Hsc.
  unfold Rneb; destruct (Req_dec_T r 0) as [E | N].
  - do 3 eexists; split; [reflexivity |].
    rewrite E in *. replace (0 * D) with 0 in * by ring.
    rewrite sin_0, cos_0. ring.
  - do 3 eexists; split; [reflexivity |].
    transitivity ((x * x + y * y) / (r * r) * (sin (r * D) * sin (r * D))
                  + cos (r * D) * cos (r * D)).
    + field; assumption.
    + rewrite <- Hr. replace (r * r / (r * r)) with 1 by (field; assumption).
      lra.
Qed.

(** ** Elementary transforms: the claims *)

(** C2 (unit-sphere invariant).  For every pixel [(px, py)], with any
    real coordinates, [cartesian2sphere] returns a point of three
    coordinates with [x*x + y*y + z*z = 1]; its Euclidean norm is
    therefore 1, in particular within [1e-9] of 1. *)
Theorem cartesian2sphere_unit_norm (px py : R) :
  exists s,
    cartesian2sphere [px; py] = Ok s /\
    List.length s = 3%nat /\
    sq_norm s = 1 /\
    Rabs (sq_norm s - 1) <= 0.000000001 /\
    Rabs (norm s - 1) <= 0.000000001.
Proof.
  destruct (cartesian2sphere_on_sphere px py) as (x & y & z & Hs & Hn).
  exists [x; y; z]. split; [exact Hs |]. split; [reflexivity |].
  assert (Hsq : sq_norm [x; y; z] = 1) by (cbn [sq_norm fold_right]; lra).
  split; [exact Hsq |].
  unfold norm. rewrite Hsq, sqrt_1.
  replace (1 - 1) with 0 by ring. rewrite Rabs_R0. lra.
Qed.

(** C6 (degenerate center).  The principal point [(960, 540)] has
    radius 0, so the guard [r != 0] of line 17 is false, no division by
    [r] takes place, and [cartesian2sphere] returns exactly [(0, 0, 1)]. *)
Theorem cartesian2sphere_center :
  center = [960; 540] /\
  pixel_radius 960 540 = 0 /\
  Rneb (pixel_radius 960 540) 0 = false /\
  cartesian2sphere center = Ok [0; 0; 1].
Proof.
  split; [reflexivity |]. split; [apply pixel_radius_center |].
  split; [rewrite pixel_radius_center; apply Rneb_refl |].
  unfold center. rewrite cartesian2sphere_pair; cbv zeta.
  rewrite pixel_radius_center, Rneb_refl.
  replace (0 * D) with 0 by ring. rewrite sin_0, cos_0.
  do 2 f_equal; [ring | f_equal; ring].
Qed.

(** C7 (polar singularity).  On [(0, 0, 1)] the guard [pt[2] != 1] of
    line 32 is false, the division by [sqrt (1 - z*z)], which is a
    division by zero there, is skipped, and [sphere2cartesian] returns
    exactly the principal point [(960, 540)]. *)
Theorem sphere2cartesian_pole :
  Rneb 1 1 = false /\
  (forall r, (s <- math_sqrt (1 - 1 * 1) ;; truediv r s)
             = Raise ZeroDivisionError) /\
  sphere2cartesian [0; 0; 1] = Ok [960; 540] /\
  [960; 540] = center.
Proof.
  split; [apply Rneb_refl |]. split.
  - intros r. replace (1 - 1 * 1) with 0 by ring.
    rewrite math_sqrt_ok by lra. cbn [bind]. rewrite sqrt_0.
    apply truediv_zero.
  - split; [| reflexivity].
    pose proof D_pos as HD.
    unfold sphere2cartesian, center; cbn [getitem nth_error bind].
    rewrite math_acos_ok by lra; cbn [bind]. rewrite acos_1.
    rewrite truediv_ok by lra; cbn [bind].
    rewrite Rneb_refl; cbn [bind].
    do 2 f_equal; [unfold Rdiv; ring | f_equal; unfold Rdiv; ring].
Qed.




(** ** Where [sphere2cartesian] is defined *)

Lemma sphere2cartesian_antipode (x y : R) :
  sphere2cartesian [x; y; -1] = Raise ZeroDivisionError.
Proof.
  pose proof D_pos as HD.
  unfold sphere2cartesian; cbn [getitem nth_error bind].
  rewrite math_acos_ok by lra; cbn [bind].
  rewrite truediv_ok by lra; cbn [bind].
  rewrite Rneb_true by lra.
  replace (1 - -1 * -1) with 0 by ring.
  rewrite math_sqrt_ok by lra; cbn [bind].
  rewrite sqrt_0, truediv_zero. reflexivity.
Qed.

Lemma sphere2cartesian_outside (x y z : R) :
  1 < Rabs z -> sphere2cartesian [x; y; z] = Raise (ValueError MathDomain).
Proof.
  intros Hz. unfold sphere2cartesian; cbn [getitem nth_error bind].
  rewrite (math_acos_domain z Hz). reflexivity.
Qed.

Lemma sphere2cartesian_defined (x y z : R) :
  -1 < z <= 1 -> exists q, sphere2cartesian [x; y; z] = Ok q.
Proof.
  intros [Hl Hu]. pose proof D_pos as HD.
  unfold sphere2cartesian, center; cbn [getitem nth_error bind].
  rewrite math_acos_ok by lra; cbn [bind].
  rewrite truediv_ok by lra; cbn [bind].
  unfold Rneb; destruct (Req_dec_T z 1) as [E | N]; cbn [bind].
  - eexists; reflexivity.
  - assert (Hpos : 0 < 1 - z * z) by nra.
    rewrite math_sqrt_ok by lra; cbn [bind].
    pose proof (sqrt_lt_R0 _ Hpos) as Hs.
    rewrite truediv_ok by lra; cbn [bind].
    eexists; reflexivity.
Qed.

(** C9 (partiality of [sphere2cartesian]).  The guard [pt[2] != 1] does
    not cover the antipodal point: on [(0, 0, -1)], and on every point
    with [z = -1], the division by [sqrt (1 - z*z) = 0] is reached and
    raises [ZeroDivisionError]; on every point with [|z| > 1] the call of
    [math.acos] raises a domain [ValueError]; and a 3D point is converted
    without exception exactly when [-1 < z <= 1]. *)
Theorem sphere2cartesian_domain :
  sphere2cartesian [0; 0; -1] = Raise ZeroDivisionError /\
  (forall x y, sphere2cartesian [x; y; -1] = Raise ZeroDivisionError) /\
  (forall x y z, 1 < Rabs z ->
     sphere2cartesian [x; y; z] = Raise (ValueError MathDomain)) /\
  (forall x y z, (exists q, sphere2cartesian [x; y; z] = Ok q)
                 <-> -1 < z <= 1).
Proof.
  split; [apply sphere2cartesian_antipode |].
  split; [apply sphere2cartesian_antipode |].
  split; [apply sphere2cartesian_outside |].
  intros x y z; split; [| apply sphere2cartesian_defined].
  intros [q Hq].
  destruct (Rle_dec z 1) as [Hu | Hu].
  - destruct (Rlt_dec (-1) z) as [Hl | Hl]; [lra |].
    destruct (Req_dec_T z (-1)) as [E | N].
    + subst z. rewrite sphere2cartesian_antipode in Hq. discriminate.
    + rewrite sphere2cartesian_outside in Hq; [discriminate |].
      rewrite Rabs_left by lra. lra.
  - rewrite sphere2cartesian_outside in Hq; [discriminate |].
    rewrite Rabs_right by lra. lra.
Qed.

Lemma sphere2cartesian_domain_witness :
  1 < Rabs 2 /\
  sphere2cartesian [0; 0; 2] = Raise (ValueError MathDomain).
Proof.
  assert (H : 1 < Rabs 2) by (rewrite Rabs_right; lra).
  split; [exact H |].
  exact (proj1 (proj2 (proj2 sphere2cartesian_domain)) 0 0 2 H).
Defined.

(** ** Point dispatch *)

Lemma convert_point_pair (a b : R) :
  convert_point [a; b] = cartesian2sphere [a; b].
Proof. reflexivity. Qed.

Lemma convert_point_pair_ok (a b : R) :
  exists x y z, convert_point [a; b] = Ok [x; y; z].
Proof.
  destruct (cartesian2sphere_on_sphere a b) as (x & y & z & H & _).
  exists x, y, z. now rewrite convert_point_pair.
Qed.

Lemma convert_point_bad_arity (point : list R) :
  List.length point <> 2%nat ->
  List.length point <> 3%nat ->
  convert_point point = Raise (ValueError (BadDimension (List.length point))).
Proof.
  intros H2 H3. unfold convert_point.
  apply Nat.eqb_neq in H2; apply Nat.eqb_neq in H3.
  now rewrite H2, H3.
Qed.

(** C8 (eager validation).  A [CartesianBbox] of 3 values with a
    recognised tag is refused by the length assertion; a
    [CartesianPolygon] of 2 vertices is refused by the length assertion;
    [convert_point] on a point of 4 coordinates raises the [ValueError]
    that carries the length 4, and so it does, with the observed length,
    on every point whose arity is neither 2 nor 3. *)
Theorem eager_validation
  (a b c : Z) (fmt : pystr) (v1 v2 : list Z) (p1 p2 p3 p4 : R)
  (point : list R)
  (Hfmt : fmt_is_valid fmt = true)
  (Hnot2 : List.length point <> 2%nat)
  (Hnot3 : List.length point <> 3%nat) :
  CartesianBbox_init [a; b; c] fmt
    = Raise (AssertionError "Cartesian bbox must have 4 values") /\
  CartesianPolygon_init [v1; v2]
    = Raise (AssertionError "We need at least 3 points to form a polygon") /\
  convert_point [p1; p2; p3; p4] = Raise (ValueError (BadDimension 4)) /\
  convert_point point = Raise (ValueError (BadDimension (List.length point))).
Proof.
  split; [unfold CartesianBbox_init; now rewrite Hfmt |].
  split; [reflexivity |].
  split; [reflexivity |].
  now apply convert_point_bad_arity.
Qed.

Lemma eager_validation_witness :
  CartesianBbox_init [100; 150; 50]%Z (literal "xywh")
    = Raise (AssertionError "Cartesian bbox must have 4 values") /\
  CartesianPolygon_init [[100; 100]; [80; 150]]%Z
    = Raise (AssertionError "We need at least 3 points to form a polygon") /\
  convert_point [1; 2; 3; 4] = Raise (ValueError (BadDimension 4)) /\
  convert_point [7] = Raise (ValueError (BadDimension 1)).
Proof.
  apply (eager_validation 100 150 50 (literal "xywh")
           [100; 100]%Z [80; 150]%Z 1 2 3 4 [7]).
  - reflexivity.
  - simpl; lia.
  - simpl; lia.
Defined.

(** ** Box normalisation *)

Lemma Zdiv2_floor (w : Z) : (2 * (w / 2) <= w < 2 * (w / 2) + 2)%Z.
Proof.
  pose proof (Z.div_mod w 2 ltac:(lia)) as E.
  pose proof (Z.mod_pos_bound w 2 ltac:(lia)) as B.
  lia.
Qed.

(** C4 (box normalisation).  On every box of 4 values [xywh_to_xxyy]
    returns [(x, y, x+w, y+h)]; [cxcywh_to_xxyy] returns
    [(cx-w2, cy-h2, cx+w2, cy+h2)] where [w2] and [h2] are the halves of
    [w] and [h] rounded down; and under the tags ['xyxy'], ['xywh'] and
    ['cxcywh'] the box that [bbox_to_spherical] converts is the box
    itself, the first and the second of these. *)
Theorem box_normalization (x y w h : Z) :
  xywh_to_xxyy [x; y; w; h] = Ok [x; y; x + w; y + h]%Z /\
  (exists w2 h2 : Z,
     cxcywh_to_xxyy [x; y; w; h] = Ok [x - w2; y - h2; x + w2; y + h2]%Z /\
     w2 = (w / 2)%Z /\ h2 = (h / 2)%Z /\
     (2 * w2 <= w < 2 * w2 + 2)%Z /\ (2 * h2 <= h < 2 * h2 + 2)%Z) /\
  bbox_xxyy (mk_CartesianBbox [x; y; w; h] (literal "xyxy"))
    = Ok [x; y; w; h] /\
  bbox_xxyy (mk_CartesianBbox [x; y; w; h] (literal "xywh"))
    = Ok [x; y; x + w; y + h]%Z /\
  bbox_xxyy (mk_CartesianBbox [x; y; w; h] (literal "cxcywh"))
    = Ok [x - w / 2; y - h / 2; x + w / 2; y + h / 2]%Z.
Proof.
  split; [reflexivity |]. split.
  - exists (w / 2)%Z, (h / 2)%Z.
    split; [reflexivity |]. split; [reflexivity |]. split; [reflexivity |].
    split; apply Zdiv2_floor.
  - repeat split.
Qed.

(** The dispatch of [bbox_to_spherical] compares the tag by identity: a
    tag with the characters of ['xywh'] that is not the interned literal
    is accepted by the constructor and then converted as corners. *)
Remark bbox_xxyy_dispatch_by_identity (x y w h : Z) :
  let tag := mk_pystr "xywh" false in
  CartesianBbox_init [x; y; w; h] tag = Ok (mk_CartesianBbox [x; y; w; h] tag) /\
  bbox_xxyy (mk_CartesianBbox [x; y; w; h] tag) = Ok [x; y; w; h].
Proof. split; reflexivity. Qed.

(** ** Boxes on the sphere *)

Lemma bbox_to_spherical_corners (a b c d : Z) :
  exists ul lr,
    convert_point [IZR a; IZR b] = Ok ul /\
    convert_point [IZR c; IZR d] = Ok lr /\
    List.length ul = 3%nat /\ List.length lr = 3%nat /\
    _bbox_to_spherical [a; b; c; d] = Ok (mk_SphericalBbox (ul ++ lr)).
Proof.
  destruct (convert_point_pair_ok (IZR a) (IZR b)) as (x1 & y1 & z1 & H1).
  destruct (convert_point_pair_ok (IZR c) (IZR d)) as (x2 & y2 & z2 & H2).
  exists [x1; y1; z1], [x2; y2; z2].
  repeat split; try assumption.
  unfold _bbox_to_spherical; cbn [firstn skipn map].
  rewrite H1, H2. reflexivity.
Qed.

(** An accepted box has 4 values, and so has its normal form, whichever
    branch of the dispatch is taken. *)
Lemma accepted_bbox_xxyy (points : list Z) (fmt : pystr) (cb : CartesianBbox) :
  CartesianBbox_init points fmt = Ok cb ->
  exists a b c d, bbox_xxyy cb = Ok [a; b; c; d].
Proof.
  unfold CartesianBbox_init.
  destruct (negb (fmt_is_valid fmt)); [discriminate |].
  destruct (Nat.eqb (List.length points) 4) eqn:Hlen; [| discriminate].
  cbn [negb]. intros [= <-].
  apply Nat.eqb_eq in Hlen.
  destruct points as [| x [| y [| w [| h [| ? ?]]]]]; try discriminate.
  unfold bbox_xxyy; cbn [cb_points cb_fmt].
  destruct (is_literal fmt "xywh").
  - now exists x, y, (x + w)%Z, (y + h)%Z.
  - destruct (is_literal fmt "cxcywh").
    + now exists (x - w / 2)%Z, (y - h / 2)%Z, (x + w / 2)%Z, (y + h / 2)%Z.
    + now exists x, y, w, h.
Qed.

(** C10 (six values).  For every box accepted by the constructor of
    [CartesianBbox], [bbox_to_spherical] returns a [SphericalBbox]; its
    values are the 3 coordinates of one corner followed by the 3 of the
    other, 6 in all, and the assertion of the [SphericalBbox] constructor
    holds of them. *)
Theorem bbox_to_spherical_six_values
  (points : list Z) (fmt : pystr) (cb : CartesianBbox)
  (Hcb : CartesianBbox_init points fmt = Ok cb) :
  exists sb ul lr,
    bbox_to_spherical cb = Ok sb /\
    sb_points sb = ul ++ lr /\
    List.length ul = 3%nat /\ List.length lr = 3%nat /\
    List.length (sb_points sb) = POINTS_LEN /\
    SphericalBbox_init (sb_points sb) = Ok sb.
Proof.
  destruct (accepted_bbox_xxyy _ _ _ Hcb) as (a & b & c & d & Hx).
  destruct (bbox_to_spherical_corners a b c d)
    as (ul & lr & _ & _ & Hul & Hlr & Hs).
  exists (mk_SphericalBbox (ul ++ lr)), ul, lr.
  unfold bbox_to_spherical. rewrite Hx; cbn [bind]. rewrite Hs.
  cbn [sb_points].
  assert (Hlen : List.length (ul ++ lr) = 6%nat)
    by (rewrite length_app, Hul, Hlr; reflexivity).
  repeat split; try assumption.
  unfold SphericalBbox_init, POINTS_LEN. now rewrite Hlen.
Qed.

Lemma bbox_to_spherical_six_values_witness :
  exists sb ul lr,
    bbox_to_spherical (mk_CartesianBbox [125; 175; 50; 50]%Z (literal "cxcywh"))
      = Ok sb /\
    sb_points sb = ul ++ lr /\
    List.length ul = 3%nat /\ List.length lr = 3%nat /\
    List.length (sb_points sb) = 6%nat /\
    SphericalBbox_init (sb_points sb) = Ok sb.
Proof.
  apply (bbox_to_spherical_six_values
           [125; 175; 50; 50]%Z (literal "cxcywh")).
  reflexivity.
Defined.

(** C3 (box format equivalence).  The three boxes of [main], corners
    [[100,150,150,200]] tagged ['xyxy'], [[100,150,50,50]] tagged
    ['xywh'] and [[125,175,50,50]] tagged ['cxcywh'], are accepted, have
    the same normal form [[100,150,150,200]], and [bbox_to_spherical]
    returns one and the same [SphericalBbox], of 6 values, for the three
    of them. *)
Theorem box_format_equivalence :
  exists b1 b2 b3 sb,
    main_bbox1 = [Ok b1; Ok b2; Ok b3] /\
    cb_fmt b1 = literal "xyxy" /\ cb_points b1 = [100; 150; 150; 200]%Z /\
    cb_fmt b2 = literal "xywh" /\ cb_points b2 = [100; 150; 50; 50]%Z /\
    cb_fmt b3 = literal "cxcywh" /\ cb_points b3 = [125; 175; 50; 50]%Z /\
    bbox_xxyy b1 = Ok [100; 150; 150; 200]%Z /\
    bbox_xxyy b2 = Ok [100; 150; 150; 200]%Z /\
    bbox_xxyy b3 = Ok [100; 150; 150; 200]%Z /\
    bbox_to_spherical b1 = Ok sb /\
    bbox_to_spherical b2 = Ok sb /\
    bbox_to_spherical b3 = Ok sb /\
    List.length (sb_points sb) = 6%nat.
Proof.
  destruct (bbox_to_spherical_corners 100 150 150 200)
    as (ul & lr & _ & _ & Hul & Hlr & Hs).
  exists (mk_CartesianBbox [100; 150; 150; 200]%Z (literal "xyxy")),
         (mk_CartesianBbox [100; 150; 50; 50]%Z (literal "xywh")),
         (mk_CartesianBbox [125; 175; 50; 50]%Z (literal "cxcywh")),
         (mk_SphericalBbox (ul ++ lr)).
  split; [reflexivity |].
  do 6 (split; [reflexivity |]).
  do 3 (split; [reflexivity |]).
  do 3 (split; [exact Hs |]).
  cbn [sb_points]. rewrite length_app, Hul, Hlr. reflexivity.
Qed.

(** ** Polygons *)

Lemma mapM_Forall2 {A B : Type} (g : A -> result B)
  (l : list A) (bs : list B) :
  mapM g l = Ok bs <-> Forall2 (fun a b => g a = Ok b) l bs.
Proof.
  revert bs; induction l as [| a l IH]; intros bs; cbn [mapM].
  - split.
    + intros [= <-]. constructor.
    + intros H; inversion H; reflexivity.
  - split.
    + destruct (g a) as [b | e] eqn:Ea; cbn [bind]; [| discriminate].
      destruct (mapM g l) as [bs' | e] eqn:El; cbn [bind]; [| discriminate].
      intros [= <-]. constructor; [assumption | now apply IH].
    + intros H; inversion H as [| a' b l' bs' Hab Hrest]; subst.
      rewrite Hab; cbn [bind].
      apply IH in Hrest. rewrite Hrest. reflexivity.
Qed.

Lemma mapM_total {A B : Type} (g : A -> result B) (l : list A) :
  Forall (fun a => exists b, g a = Ok b) l -> exists bs, mapM g l = Ok bs.
Proof.
  induction 1 as [| a l [b Hb] _ [bs Hbs]]; cbn [mapM].
  - now exists [].
  - exists (b :: bs). now rewrite Hb, Hbs.
Qed.

Lemma Forall2_nth_error {A B : Type} (P : A -> B -> Prop)
  (l : list A) (l' : list B) :
  Forall2 P l l' ->
  forall i a, nth_error l i = Some a ->
              exists b, nth_error l' i = Some b /\ P a b.
Proof.
  induction 1 as [| x y l l' Hxy _ IH]; intros i a Hi.
  - destruct i; discriminate.
  - destruct i as [| i]; cbn in Hi |- *.
    + injection Hi as <-. now exists y.
    + now apply IH.
Qed.

(** C5 (polygon vertex preservation).  For every polygon accepted by the
    constructor of [CartesianPolygon] (at least 3 vertices) whose
    vertices are pairs, [polygon_to_spherical] returns a
    [SphericalPolygon] with as many vertices as the input, whose i-th
    vertex is what [convert_point] returns on the i-th input vertex, in
    the same order, each with 3 coordinates. *)
Theorem polygon_vertex_preservation
  (contour : list (list Z)) (cp : CartesianPolygon)
  (Hcp : CartesianPolygon_init contour = Ok cp)
  (Hpairs : Forall (fun v => List.length v = 2%nat) contour) :
  exists sp,
    polygon_to_spherical cp = Ok sp /\
    cp_contour cp = contour /\
    List.length (sp_contour sp) = List.length contour /\
    sp_num_vertex sp = cp_num_vertex cp /\
    Forall2 (fun v s => convert_point (map IZR v) = Ok s /\
                        List.length s = 3%nat)
            contour (sp_contour sp) /\
    (forall i v, nth_error contour i = Some v ->
       exists s, nth_error (sp_contour sp) i = Some s /\
                 convert_point (map IZR v) = Ok s).
Proof.
  unfold CartesianPolygon_init in Hcp.
  destruct (Nat.leb MIN_POLY_LEN (List.length contour)) eqn:Hlen;
    [| discriminate].
  cbn [negb] in Hcp. injection Hcp as <-.
  set (g := fun point : list Z => convert_point (map IZR point)).
  assert (Hconv : Forall (fun v => exists s, g v = Ok s /\ List.length s = 3%nat)
                         contour).
  { eapply Forall_impl; [| exact Hpairs].
    intros [| a [| b [| ? ?]]] Hv; try discriminate.
    destruct (convert_point_pair_ok (IZR a) (IZR b)) as (x & y & z & H).
    exists [x; y; z]. split; [exact H | reflexivity]. }
  destruct (mapM_total g contour) as [sc Hsc].
  { eapply Forall_impl; [| exact Hconv]. intros v (s & Hs & _). now exists s. }
  pose proof (proj1 (mapM_Forall2 g contour sc) Hsc) as HF.
  pose proof (Forall2_length HF) as HL.
  exists (mk_SphericalPolygon sc (List.length sc)).
  unfold polygon_to_spherical; cbn [cp_contour cp_num_vertex].
  fold g. rewrite Hsc; cbn [bind].
  unfold SphericalPolygon_init. rewrite <- HL, Hlen; cbn [negb].
  cbn [sp_contour sp_num_vertex].
  split; [reflexivity |]. split; [reflexivity |]. split; [now rewrite HL |].
  split; [now rewrite HL |]. split.
  - clear Hsc HL Hlen. induction HF as [| v s l l' Hvs _ IH]; constructor.
    + split; [exact Hvs |].
      inversion Hconv as [| ? ? (s' & Hs' & Hlen') _]; subst.
      rewrite Hvs in Hs'. injection Hs' as <-. exact Hlen'.
    + apply IH.
      * now inversion Hpairs.
      * now inversion Hconv.
  - intros i v Hi. exact (Forall2_nth_error _ _ _ HF i v Hi).
Qed.

Lemma polygon_vertex_preservation_witness :
  exists sp,
    polygon_to_spherical (mk_CartesianPolygon main_contour 4) = Ok sp /\
    cp_contour (mk_CartesianPolygon main_contour 4) = main_contour /\
    List.length (sp_contour sp) = 4%nat /\
    sp_num_vertex sp = 4%nat /\
    Forall2 (fun v s => convert_point (map IZR v) = Ok s /\
                        List.length s = 3%nat)
            main_contour (sp_contour sp) /\
    (forall i v, nth_error main_contour i = Some v ->
       exists s, nth_error (sp_contour sp) i = Some s /\
                 convert_point (map IZR v) = Ok s).
Proof.
  apply (polygon_vertex_preservation main_contour
           (mk_CartesianPolygon main_contour 4)).
  - reflexivity.
  - unfold main_contour. repeat constructor.
Defined.

(** * Further properties of the conversions *)

(** ** Shared facts *)

Lemma cartesian2sphere_principal : cartesian2sphere [960; 540] = Ok [0; 0; 1].
Proof.
  rewrite cartesian2sphere_pair; cbv zeta.
  rewrite pixel_radius_center, Rneb_refl.
  replace (0 * D) with 0 by ring. rewrite sin_0, cos_0.
  do 2 f_equal; [ring | f_equal; ring].
Qed.

Lemma sphere2cartesian_axis (x y : R) :
  sphere2cartesian [x; y; 1] = Ok [960; 540].
Proof.
  pose proof D_pos as HD.
  unfold sphere2cartesian, center; cbn [getitem nth_error bind].
  rewrite math_acos_ok by lra; cbn [bind]. rewrite acos_1.
  rewrite truediv_ok by lra; cbn [bind].
  rewrite Rneb_refl; cbn [bind].
  do 2 f_equal; [unfold Rdiv; ring | f_equal; unfold Rdiv; ring].
Qed.

(** What [sphere2cartesian] returns strictly between the poles. *)
Lemma sphere2cartesian_between (x y z : R) :
  -1 < z < 1 ->
  sphere2cartesian [x; y; z] =
  Ok [acos z / D / sqrt (1 - z * z) * x * f + 960;
      acos z / D / sqrt (1 - z * z) * y * f + 540].
Proof.
  intros [Hl Hu]. pose proof D_pos as HD.
  unfold sphere2cartesian, center; cbn [getitem nth_error bind].
  rewrite math_acos_ok by lra; cbn [bind].
  rewrite truediv_ok by lra; cbn [bind].
  rewrite Rneb_true by lra.
  assert (Hpos : 0 < 1 - z * z) by nra.
  rewrite math_sqrt_ok by lra; cbn [bind].
  pose proof (sqrt_lt_R0 _ Hpos) as Hs.
  rewrite truediv_ok by lra. reflexivity.
Qed.

(** The radius of the pixel at offset [k * f * (a, b)] from the principal
    point. *)
Lemma pixel_radius_scaled (k a b : R) :
  0 <= k ->
  pixel_radius (k * a * f + 960) (k * b * f + 540) = k * sqrt (a * a + b * b).
Proof.
  intros Hk. pose proof f_pos as Hf. unfold pixel_radius.
  replace ((k * a * f + 960 - 960) / f) with (k * a) by (field; lra).
  replace ((k * b * f + 540 - 540) / f) with (k * b) by (field; lra).
  replace (k * a * (k * a) + k * b * (k * b))
    with (k * k * (a * a + b * b)) by ring.
  rewrite sqrt_mult by (try apply sum_squares_nonneg; nra).
  now rewrite sqrt_square.
Qed.

(** A pixel of radius 0 is the principal point. *)
Lemma pixel_radius_zero (px py : R) :
  pixel_radius px py = 0 -> px = 960 /\ py = 540.
Proof.
  intros E. pose proof f_pos as Hf.
  pose proof (pixel_radius_sqr px py) as Hs. rewrite E in Hs.
  set (a := (px - 960) / f) in *. set (b := (py - 540) / f) in *.
  assert (Ha : a = 0) by nra. assert (Hb : b = 0) by nra.
  unfold a in Ha; unfold b in Hb.
  apply (f_equal (fun t => t * f)) in Ha, Hb.
  unfold Rdiv in Ha, Hb.
  rewrite Rmult_assoc, Rinv_l, Rmult_1_r, Rmult_0_l in Ha by lra.
  rewrite Rmult_assoc, Rinv_l, Rmult_1_r, Rmult_0_l in Hb by lra.
  lra.
Qed.


(** Every pixel of the 1080p frame the constants are written for has a
    transformed radius below [PI]. *)
Lemma frame_radius_bound (px py : R) :
  0 <= px <= 1920 -> 0 <= py <= 1080 -> pixel_radius px py * D < 3.
Proof.
  intros Hx Hy.
  pose proof (pixel_radius_nonneg px py) as Hr0.
  pose proof (pixel_radius_sqr px py) as Hsq.
  set (r := pixel_radius px py) in *.
  set (a := (px - 960) / f) in *. set (b := (py - 540) / f) in *.
  assert (Ha : -1.345 <= a <= 1.345).
  { unfold a, f. split.
    - apply Rmult_le_reg_r with (714.285714); [lra |].
      unfold Rdiv. rewrite Rmult_assoc, Rinv_l by lra. lra.
    - apply Rmult_le_reg_r with (714.285714); [lra |].
      unfold Rdiv. rewrite Rmult_assoc, Rinv_l by lra. lra. }
  assert (Hb : -0.757 <= b <= 0.757).
  { unfold b, f. split.
    - apply Rmult_le_reg_r with (714.285714); [lra |].
      unfold Rdiv. rewrite Rmult_assoc, Rinv_l by lra. lra.
    - apply Rmult_le_reg_r with (714.285714); [lra |].
      unfold Rdiv. rewrite Rmult_assoc, Rinv_l by lra. lra. }
  assert (Hr2 : r * r <= 2.4025) by nra.
  assert (Hr : r <= 1.55) by nra.
  unfold D. lra.
Qed.

(** The third coordinate of the image is the cosine of the transformed
    radius. *)
Lemma cartesian2sphere_third (px py : R) :
  exists x y,
    cartesian2sphere [px; py] = Ok [x; y; cos (pixel_radius px py * D)].
Proof.
  rewrite cartesian2sphere_pair; cbv zeta.
  destruct (Rneb (pixel_radius px py) 0); eexists; eexists; reflexivity.
Qed.

Lemma cos_above_minus_1 (t : R) : 0 <= t < PI -> -1 < cos t <= 1.
Proof.
  intros [H0 H1]. pose proof (COS_bound t) as [Hl Hu].
  split; [| exact Hu].
  destruct (Req_dec_T t 0) as [-> | N]; [rewrite cos_0; lra |].
  assert (Hs : 0 < sin t) by (apply sin_gt_0; lra).
  pose proof (sin2_cos2 t) as Hsc; unfold Rsqr in Hsc.
  destruct (Req_dec_T (cos t) (-1)) as [E | N']; [| lra].
  rewrite E in Hsc. nra.
Qed.



(** ** Round trips *)

(** X1.  From the sphere and back: for every point [(x, y, z)] of the
    unit sphere other than the antipode [(0, 0, -1)], [sphere2cartesian]
    returns a pixel and [cartesian2sphere] maps that pixel back to
    [(x, y, z)]. *)
Theorem sphere_roundtrip (x y z : R)
  (Hnorm : sq_norm [x; y; z] = 1) (Hz : -1 < z <= 1) :
  exists q, sphere2cartesian [x; y; z] = Ok q /\
            cartesian2sphere q = Ok [x; y; z].
Proof.
  cbn [sq_norm fold_right] in Hnorm.
  pose proof f_pos as Hf. pose proof D_pos as HD.
  destruct (Req_dec_T z 1) as [E | N].
  - subst z. assert (x = 0) by nra. assert (y = 0) by nra. subst x y.
    exists [960; 540].
    split; [apply sphere2cartesian_axis | apply cartesian2sphere_principal].
  - assert (Hin : -1 < z < 1) by lra.
    rewrite (sphere2cartesian_between x y z Hin).
    eexists; split; [reflexivity |].
    assert (Hpos : 0 < 1 - z * z) by nra.
    pose proof (sqrt_lt_R0 _ Hpos) as Hs.
    pose proof (acos_bound_lt z Hin) as [Ha0 Ha1].
    pose proof (cos_acos z ltac:(lra)) as Hcos.
    pose proof (sin_acos z ltac:(lra)) as Hsin. unfold Rsqr in Hsin.
    set (s := sqrt (1 - z * z)) in *. set (a := acos z) in *.
    assert (Hxy : sqrt (x * x + y * y) = s).
    { unfold s. f_equal. lra. }
    assert (Hk : 0 <= a / D / s).
    { apply Rlt_le.
      apply Rdiv_lt_0_compat; [apply Rdiv_lt_0_compat |]; lra. }
    rewrite cartesian2sphere_pair; cbv zeta.
    rewrite (pixel_radius_scaled (a / D / s) x y Hk), Hxy.
    replace (a / D / s * s) with (a / D) by (field; lra).
    assert (HaD : a / D <> 0).
    { apply Rgt_not_eq. apply Rdiv_lt_0_compat; lra. }
    rewrite (Rneb_true _ _ HaD).
    replace (a / D * D) with a by (field; lra).
    rewrite Hcos, Hsin.
    do 2 f_equal; [field; repeat split; lra | f_equal; field; repeat split; lra].
Qed.

Lemma sphere_roundtrip_witness :
  exists q, sphere2cartesian [1; 0; 0] = Ok q /\
            cartesian2sphere q = Ok [1; 0; 0].
Proof.
  apply (sphere_roundtrip 1 0 0).
  - cbn [sq_norm fold_right]. lra.
  - lra.
Defined.



(** X3.  At the end of the invertible range: a pixel whose transformed
    radius is exactly [PI] is mapped to the antipode [(0, 0, -1)],
    whatever its direction, and the way back from there raises
    [ZeroDivisionError]. *)
Theorem roundtrip_breaks_at_PI (px py : R)
  (Hr : pixel_radius px py * D = PI) :
  cartesian2sphere [px; py] = Ok [0; 0; -1] /\
  (forall s, cartesian2sphere [px; py] = Ok s ->
             sphere2cartesian s = Raise ZeroDivisionError).
Proof.
  assert (Hs : cartesian2sphere [px; py] = Ok [0; 0; -1]).
  { rewrite cartesian2sphere_pair; cbv zeta.
    assert (N : pixel_radius px py <> 0).
    { intros E. rewrite E in Hr. pose proof PI_RGT_0. lra. }
    rewrite (Rneb_true _ _ N), Hr, sin_PI, cos_PI.
    do 2 f_equal; [ring | f_equal; ring]. }
  split; [exact Hs |].
  intros s Hs'. rewrite Hs in Hs'. injection Hs' as <-.
  apply sphere2cartesian_antipode.
Qed.

Lemma roundtrip_breaks_at_PI_witness :
  cartesian2sphere [PI / D * 1 * f + 960; PI / D * 0 * f + 540]
    = Ok [0; 0; -1] /\
  (forall s,
     cartesian2sphere [PI / D * 1 * f + 960; PI / D * 0 * f + 540] = Ok s ->
     sphere2cartesian s = Raise ZeroDivisionError).
Proof.
  apply (roundtrip_breaks_at_PI (PI / D * 1 * f + 960) (PI / D * 0 * f + 540)).
  pose proof D_pos as HD. pose proof PI_RGT_0 as HPI.
  rewrite pixel_radius_scaled
    by (apply Rlt_le, Rdiv_lt_0_compat; lra).
  replace (1 * 1 + 0 * 0) with 1 by ring. rewrite sqrt_1.
  field; lra.
Defined.

(** Scaling the offset of a pixel from the principal point scales its
    radius. *)
Lemma pixel_radius_homothety (k px py : R) :
  0 <= k ->
  pixel_radius (960 + k * (px - 960)) (540 + k * (py - 540))
  = k * pixel_radius px py.
Proof.
  intros Hk. pose proof f_pos as Hf.
  replace (960 + k * (px - 960)) with (k * ((px - 960) / f) * f + 960)
    by (field; lra).
  replace (540 + k * (py - 540)) with (k * ((py - 540) / f) * f + 540)
    by (field; lra).
  rewrite pixel_radius_scaled by assumption. reflexivity.
Qed.

(** X4.  [cartesian2sphere] is not injective on the plane: moving a
    pixel away from the principal point, along its ray, by [2 * PI / D]
    focal lengths gives a different pixel with the same image. *)
Theorem cartesian2sphere_not_injective (px py : R)
  (Hr : pixel_radius px py <> 0) :
  let k := 1 + 2 * PI / (D * pixel_radius px py) in
  [960 + k * (px - 960); 540 + k * (py - 540)] <> [px; py] /\
  cartesian2sphere [960 + k * (px - 960); 540 + k * (py - 540)]
    = cartesian2sphere [px; py].
Proof.
  intros k. pose proof f_pos as Hf. pose proof D_pos as HD.
  pose proof PI_RGT_0 as HPI.
  pose proof (pixel_radius_nonneg px py) as Hr0.
  assert (Hrpos : 0 < pixel_radius px py) by lra.
  assert (Hk : 1 < k).
  { unfold k.
    assert (0 < 2 * PI / (D * pixel_radius px py))
      by (apply Rdiv_lt_0_compat; nra).
    lra. }
  split.
  - intros E. injection E as Ex Ey.
    assert (px = 960) by nra. assert (py = 540) by nra. subst px py.
    apply Hr, pixel_radius_center.
  - rewrite !cartesian2sphere_pair; cbv zeta.
    rewrite pixel_radius_homothety by lra.
    set (r := pixel_radius px py) in *.
    assert (Hkr : k * r <> 0) by nra.
    rewrite (Rneb_true _ _ Hkr), (Rneb_true _ _ Hr).
    replace (k * r * D) with (r * D + 2 * PI) by (unfold k; field; lra).
    rewrite sin_plus, cos_plus, sin_2PI, cos_2PI.
    clearbody k r.
    do 2 f_equal;
      [field; repeat split; lra
      | f_equal; [field; repeat split; lra | f_equal; ring]].
Qed.

Lemma cartesian2sphere_not_injective_witness :
  pixel_radius 1000 540 <> 0 /\
  let k := 1 + 2 * PI / (D * pixel_radius 1000 540) in
  [960 + k * (1000 - 960); 540 + k * (540 - 540)] <> [1000; 540] /\
  cartesian2sphere [960 + k * (1000 - 960); 540 + k * (540 - 540)]
    = cartesian2sphere [1000; 540].
Proof.
  assert (H : pixel_radius 1000 540 <> 0).
  { intros E. apply pixel_radius_zero in E. lra. }
  split; [exact H |].
  exact (cartesian2sphere_not_injective 1000 540 H).
Defined.

(** X5.  Inside the 1080p frame ([0 <= px <= 1920], [0 <= py <= 1080]),
    for integer and non-integer pixels alike, the transformed radius is
    below 3, hence below [PI]; [cartesian2sphere] returns a point with
    [-1 < z <= 1], and [sphere2cartesian] returns a pixel on that point:
    neither the antipode nor an exception is met on the frame. *)
Theorem frame_pixels_in_range (px py : R)
  (Hx : 0 <= px <= 1920) (Hy : 0 <= py <= 1080) :
  pixel_radius px py * D < 3 /\
  exists x y z q,
    cartesian2sphere [px; py] = Ok [x; y; z] /\
    -1 < z <= 1 /\
    sphere2cartesian [x; y; z] = Ok q.
Proof.
  pose proof (frame_radius_bound px py Hx Hy) as Hb.
  split; [exact Hb |].
  destruct (cartesian2sphere_third px py) as (x & y & Hs).
  pose proof (pixel_radius_nonneg px py) as Hr0. pose proof D_pos as HD.
  pose proof PI2_3_2 as HPI.
  assert (Hz : -1 < cos (pixel_radius px py * D) <= 1).
  { apply cos_above_minus_1. split; [nra | lra]. }
  destruct (sphere2cartesian_defined x y _ Hz) as [q Hq].
  now exists x, y, (cos (pixel_radius px py * D)), q.
Qed.

Lemma frame_pixels_in_range_witness :
  pixel_radius 1920 1080 * D < 3 /\
  exists x y z q,
    cartesian2sphere [1920; 1080] = Ok [x; y; z] /\
    -1 < z <= 1 /\
    sphere2cartesian [x; y; z] = Ok q.
Proof.
  apply (frame_pixels_in_range 1920 1080); lra.
Defined.

(** X6.  Central symmetry: the pixel mirrored through the principal point
    is mapped to the point with [x] and [y] negated and the same [z]. *)
Theorem cartesian2sphere_central_symmetry (px py x y z : R)
  (H : cartesian2sphere [px; py] = Ok [x; y; z]) :
  cartesian2sphere [1920 - px; 1080 - py] = Ok [- x; - y; z].
Proof.
  pose proof f_pos as Hf.
  assert (Hrad : pixel_radius (1920 - px) (1080 - py) = pixel_radius px py).
  { unfold pixel_radius. f_equal. field. lra. }
  rewrite cartesian2sphere_pair in H |- *; cbv zeta in H |- *.
  rewrite Hrad.
  set (r := pixel_radius px py) in *.
  unfold Rneb in *. destruct (Req_dec_T r 0) as [E | N].
  - injection H as <- <- <-.
    do 2 f_equal; [field; lra | f_equal; field; lra].
  - injection H as <- <- <-.
    do 2 f_equal; [field; lra | f_equal; field; lra].
Qed.

Lemma cartesian2sphere_central_symmetry_witness :
  cartesian2sphere [1920 - 960; 1080 - 540] = Ok [- 0; - 0; 1].
Proof.
  apply (cartesian2sphere_central_symmetry 960 540 0 0 1).
  apply cartesian2sphere_principal.
Defined.

(** ** Outcomes of [convert_point] *)

Lemma sphere2cartesian_two_values (p q : list R) :
  sphere2cartesian p = Ok q -> List.length q = 2%nat.
Proof.
  unfold sphere2cartesian. intros H.
  repeat match type of H with
         | bind ?m _ = Ok _ =>
             let E := fresh "E" in
             destruct m eqn:E; cbn [bind] in H; [| discriminate]
         end.
  now injection H as <-.
Qed.

Lemma sphere2cartesian_cases (x y z : R) :
  (-1 < z <= 1 /\ exists q, sphere2cartesian [x; y; z] = Ok q) \/
  (z = -1 /\ sphere2cartesian [x; y; z] = Raise ZeroDivisionError) \/
  (1 < Rabs z /\ sphere2cartesian [x; y; z] = Raise (ValueError MathDomain)).
Proof.
  destruct (Rle_dec z 1) as [Hu | Hu].
  - destruct (Rlt_dec (-1) z) as [Hl | Hl].
    + left. split; [lra |]. apply sphere2cartesian_defined; lra.
    + destruct (Req_dec_T z (-1)) as [E | N].
      * right; left. subst z. split; [reflexivity |].
        apply sphere2cartesian_antipode.
      * right; right.
        assert (H : 1 < Rabs z) by (rewrite Rabs_left; lra).
        split; [exact H | now apply sphere2cartesian_outside].
  - right; right.
    assert (H : 1 < Rabs z) by (rewrite Rabs_right; lra).
    split; [exact H | now apply sphere2cartesian_outside].
Qed.

(** X7.  The outcomes of [convert_point], exhaustively.  A result comes
    from a 2D point and is a 3D point of the unit sphere, or comes from
    a 3D point with [-1 < z <= 1] and is a 2D point.  The exceptions are
    the [ValueError] carrying the observed length, for a length other
    than 2 and 3; [ZeroDivisionError], only for a 3D point with
    [z = -1]; a domain [ValueError], only for a 3D point with [|z| > 1].
    No [IndexError] or [AssertionError] is ever raised. *)
Theorem convert_point_outcomes (p : list R) :
  match convert_point p with
  | Ok s =>
      (List.length p = 2%nat /\ List.length s = 3%nat /\ sq_norm s = 1) \/
      (List.length s = 2%nat /\
       exists x y z, p = [x; y; z] /\ -1 < z <= 1)
  | Raise (ValueError (BadDimension n)) =>
      n = List.length p /\ n <> 2%nat /\ n <> 3%nat
  | Raise ZeroDivisionError => exists x y, p = [x; y; -1]
  | Raise (ValueError MathDomain) =>
      exists x y z, p = [x; y; z] /\ 1 < Rabs z
  | Raise _ => False
  end.
Proof.
  destruct p as [| a [| b [| c [| d rest]]]].
  - cbn. repeat split; discriminate.
  - cbn. repeat split; discriminate.
  - rewrite convert_point_pair.
    destruct (cartesian2sphere_on_sphere a b) as (x & y & z & -> & Hn).
    left. repeat split. cbn [sq_norm fold_right]. lra.
  - change (convert_point [a; b; c]) with (sphere2cartesian [a; b; c]).
    destruct (sphere2cartesian_cases a b c)
      as [(Hz & q & Hq) | [(Hz & Hq) | (Hz & Hq)]]; rewrite Hq.
    + right. split; [now apply sphere2cartesian_two_values in Hq |].
      now exists a, b, c.
    + subst c. now exists a, b.
    + now exists a, b, c.
  - unfold convert_point; cbn [List.length Nat.eqb].
    repeat split; discriminate.
Qed.

(** X8.  Called directly, the elementary transforms read the
    coordinates they need and no other: [cartesian2sphere] ignores what
    follows the first two and raises [IndexError] on fewer,
    [sphere2cartesian] ignores what follows the first three and raises
    [IndexError] on fewer. *)
Theorem elementary_transforms_indexing (a b c : R) (rest : list R) :
  cartesian2sphere (a :: b :: rest) = cartesian2sphere [a; b] /\
  cartesian2sphere [a] = Raise IndexError /\
  cartesian2sphere [] = Raise IndexError /\
  sphere2cartesian (a :: b :: c :: rest) = sphere2cartesian [a; b; c] /\
  sphere2cartesian [a; b] = Raise IndexError /\
  sphere2cartesian [a] = Raise IndexError /\
  sphere2cartesian [] = Raise IndexError.
Proof.
  pose proof f_pos as Hf.
  repeat split; try reflexivity.
  unfold cartesian2sphere, center; cbn [getitem nth_error bind].
  rewrite truediv_ok by lra. reflexivity.
Qed.

(** ** Boxes *)

Lemma convert_point_pair_on_sphere (a b : R) :
  exists s, convert_point [a; b] = Ok s /\
            List.length s = 3%nat /\ sq_norm s = 1.
Proof.
  destruct (cartesian2sphere_on_sphere a b) as (x & y & z & H & Hn).
  exists [x; y; z]. rewrite convert_point_pair.
  repeat split; try assumption. cbn [sq_norm fold_right]. lra.
Qed.

Lemma _bbox_to_spherical_four_values_aux (bbox : list Z) :
  List.length bbox = 4%nat -> exists sb, _bbox_to_spherical bbox = Ok sb.
Proof.
  intros Hlen.
  destruct bbox as [| a [| b [| c [| d [| ? ?]]]]]; try discriminate.
  destruct (bbox_to_spherical_corners a b c d)
    as (ul & lr & _ & _ & _ & _ & Hs).
  eexists; exact Hs.
Qed.

(** X9.  [_bbox_to_spherical] returns a [SphericalBbox] exactly on lists
    of 4 values: on any other length the conversion of a corner raises,
    or (5 values) the second corner is taken for a 3D point and the
    6-value assertion fails. *)
Theorem _bbox_to_spherical_four_values (bbox : list Z) :
  (exists sb, _bbox_to_spherical bbox = Ok sb) <-> List.length bbox = 4%nat.
Proof.
  split.
  - intros [sb H].
    destruct bbox as [| a [| b [| c [| d [| e [| g rest]]]]]];
      try reflexivity; exfalso; unfold _bbox_to_spherical in H;
      cbn [firstn skipn map] in H.
    + discriminate.
    + discriminate.
    + destruct (convert_point_pair_ok (IZR a) (IZR b)) as (x & y & z & E).
      rewrite E in H. discriminate.
    + destruct (convert_point_pair_ok (IZR a) (IZR b)) as (x & y & z & E).
      rewrite E in H. discriminate.
    + destruct (convert_point_pair_ok (IZR a) (IZR b)) as (x & y & z & E).
      rewrite E in H; cbn [bind] in H.
      change (convert_point [IZR c; IZR d; IZR e])
        with (sphere2cartesian [IZR c; IZR d; IZR e]) in H.
      destruct (sphere2cartesian [IZR c; IZR d; IZR e]) as [q | err] eqn:Eq;
        cbn [bind] in H; [| discriminate].
      apply sphere2cartesian_two_values in Eq.
      destruct q as [| q1 [| q2 [| ? ?]]]; try discriminate.
    + destruct (convert_point_pair_ok (IZR a) (IZR b)) as (x & y & z & E).
      rewrite E in H. discriminate.
  - apply _bbox_to_spherical_four_values_aux.
Qed.

(** X10.  [cxcywh_to_xxyy] keeps the centre and rounds the extent down
    to an even number: the corners it returns are symmetric about
    [(cx, cy)], and their distance is [w - w mod 2] by [h - h mod 2],
    one less than [w] (or [h]) when it is odd. *)
Theorem cxcywh_centre_and_extent (cx cy w h : Z) :
  exists x1 y1 x2 y2 : Z,
    cxcywh_to_xxyy [cx; cy; w; h] = Ok [x1; y1; x2; y2] /\
    (x1 + x2 = 2 * cx)%Z /\ (y1 + y2 = 2 * cy)%Z /\
    (x2 - x1 = w - w mod 2)%Z /\ (y2 - y1 = h - h mod 2)%Z /\
    (0 <= w mod 2 <= 1)%Z /\ (0 <= h mod 2 <= 1)%Z.
Proof.
  exists (cx - w / 2)%Z, (cy - h / 2)%Z, (cx + w / 2)%Z, (cy + h / 2)%Z.
  split; [reflexivity |].
  pose proof (Z.div_mod w 2 ltac:(lia)).
  pose proof (Z.div_mod h 2 ltac:(lia)).
  pose proof (Z.mod_pos_bound w 2 ltac:(lia)).
  pose proof (Z.mod_pos_bound h 2 ltac:(lia)).
  repeat split; lia.
Qed.

(** X11.  The three encodings of one box with even width and height,
    corners [(x, y, x+w, y+h)], origin and size [(x, y, w, h)], centre
    and size [(x + w/2, y + h/2, w, h)], are converted to one and the
    same [SphericalBbox]. *)
Theorem bbox_encodings_agree (x y w h : Z)
  (Hw : (w mod 2 = 0)%Z) (Hh : (h mod 2 = 0)%Z) :
  exists sb,
    bbox_to_spherical
      (mk_CartesianBbox [x; y; x + w; y + h]%Z (literal "xyxy")) = Ok sb /\
    bbox_to_spherical
      (mk_CartesianBbox [x; y; w; h] (literal "xywh")) = Ok sb /\
    bbox_to_spherical
      (mk_CartesianBbox [x + w / 2; y + h / 2; w; h]%Z (literal "cxcywh"))
      = Ok sb.
Proof.
  destruct (bbox_to_spherical_corners x y (x + w) (y + h))
    as (ul & lr & _ & _ & _ & _ & Hs).
  exists (mk_SphericalBbox (ul ++ lr)).
  split; [exact Hs |]. split; [exact Hs |].
  unfold bbox_to_spherical, bbox_xxyy; cbn [cb_fmt cb_points].
  change (is_literal (literal "cxcywh") "xywh") with false.
  change (is_literal (literal "cxcywh") "cxcywh") with true.
  cbv iota. unfold cxcywh_to_xxyy; cbn [unpack4 bind].
  pose proof (Z.div_mod w 2 ltac:(lia)) as Ew.
  pose proof (Z.div_mod h 2 ltac:(lia)) as Eh.
  replace (x + w / 2 - w / 2)%Z with x by lia.
  replace (y + h / 2 - h / 2)%Z with y by lia.
  replace (x + w / 2 + w / 2)%Z with (x + w)%Z by lia.
  replace (y + h / 2 + h / 2)%Z with (y + h)%Z by lia.
  exact Hs.
Qed.

Lemma bbox_encodings_agree_witness :
  exists sb,
    bbox_to_spherical
      (mk_CartesianBbox [10; 20; 10 + 6; 20 + 4]%Z (literal "xyxy")) = Ok sb /\
    bbox_to_spherical
      (mk_CartesianBbox [10; 20; 6; 4]%Z (literal "xywh")) = Ok sb /\
    bbox_to_spherical
      (mk_CartesianBbox [10 + 6 / 2; 20 + 4 / 2; 6; 4]%Z (literal "cxcywh"))
      = Ok sb.
Proof.
  apply (bbox_encodings_agree 10 20 6 4); reflexivity.
Defined.

(** X12.  The dispatch on the tag is by identity.  A box accepted with a
    tag that is not the interned literal, whatever its characters
    (['xywh'] and ['cxcywh'] included), is converted as if it were given
    by its corners. *)
Theorem noninterned_tag_converted_as_corners
  (points : list Z) (s : string) (cb : CartesianBbox)
  (Hcb : CartesianBbox_init points (mk_pystr s false) = Ok cb) :
  bbox_xxyy cb = Ok points /\
  bbox_to_spherical cb = _bbox_to_spherical points /\
  exists sb, bbox_to_spherical cb = Ok sb.
Proof.
  pose proof Hcb as Hacc.
  unfold CartesianBbox_init in Hcb.
  destruct (negb (fmt_is_valid (mk_pystr s false))); [discriminate |].
  destruct (Nat.eqb (List.length points) 4) eqn:Hlen; [| discriminate].
  cbn [negb] in Hcb. injection Hcb as <-.
  assert (Hx : bbox_xxyy (mk_CartesianBbox points (mk_pystr s false))
               = Ok points) by reflexivity.
  split; [exact Hx |].
  assert (Hb : bbox_to_spherical (mk_CartesianBbox points (mk_pystr s false))
               = _bbox_to_spherical points).
  { unfold bbox_to_spherical. rewrite Hx. reflexivity. }
  split; [exact Hb |].
  rewrite Hb. apply _bbox_to_spherical_four_values_aux.
  now apply Nat.eqb_eq.
Qed.

Lemma noninterned_tag_converted_as_corners_witness :
  bbox_xxyy (mk_CartesianBbox [100; 150; 50; 50]%Z (mk_pystr "xywh" false))
    = Ok [100; 150; 50; 50]%Z /\
  bbox_to_spherical
    (mk_CartesianBbox [100; 150; 50; 50]%Z (mk_pystr "xywh" false))
    = _bbox_to_spherical [100; 150; 50; 50]%Z /\
  exists sb,
    bbox_to_spherical
      (mk_CartesianBbox [100; 150; 50; 50]%Z (mk_pystr "xywh" false)) = Ok sb.
Proof.
  apply (noninterned_tag_converted_as_corners
           [100; 150; 50; 50]%Z "xywh").
  reflexivity.
Defined.

(** X13.  Both corners of a converted box lie on the unit sphere: for
    every box accepted by the constructor, the 6 values returned are two
    points of squared norm 1. *)
Theorem bbox_corners_on_sphere
  (points : list Z) (fmt : pystr) (cb : CartesianBbox)
  (Hcb : CartesianBbox_init points fmt = Ok cb) :
  exists sb ul lr,
    bbox_to_spherical cb = Ok sb /\
    sb_points sb = ul ++ lr /\
    List.length ul = 3%nat /\ sq_norm ul = 1 /\
    List.length lr = 3%nat /\ sq_norm lr = 1.
Proof.
  destruct (accepted_bbox_xxyy _ _ _ Hcb) as (a & b & c & d & Hx).
  destruct (convert_point_pair_on_sphere (IZR a) (IZR b))
    as (ul & Hul & Lul & Nul).
  destruct (convert_point_pair_on_sphere (IZR c) (IZR d))
    as (lr & Hlr & Llr & Nlr).
  exists (mk_SphericalBbox (ul ++ lr)), ul, lr.
  repeat split; try assumption.
  unfold bbox_to_spherical. rewrite Hx; cbn [bind].
  unfold _bbox_to_spherical; cbn [firstn skipn map].
  rewrite Hul, Hlr; cbn [bind].
  unfold SphericalBbox_init, POINTS_LEN.
  rewrite length_app, Lul, Llr. reflexivity.
Qed.

Lemma bbox_corners_on_sphere_witness :
  exists sb ul lr,
    bbox_to_spherical (mk_CartesianBbox [100; 150; 50; 50]%Z (literal "xywh"))
      = Ok sb /\
    sb_points sb = ul ++ lr /\
    List.length ul = 3%nat /\ sq_norm ul = 1 /\
    List.length lr = 3%nat /\ sq_norm lr = 1.
Proof.
  apply (bbox_corners_on_sphere [100; 150; 50; 50]%Z (literal "xywh")).
  reflexivity.
Defined.

(** ** Polygons *)

Lemma mapM_first_error {A B : Type} (g : A -> result B)
  (pre post : list A) (v : A) (e : exn) :
  Forall (fun a => exists b, g a = Ok b) pre ->
  g v = Raise e ->
  mapM g (pre ++ v :: post) = Raise e.
Proof.
  intros Hpre Hv. induction Hpre as [| a pre [b Hb] _ IH]; cbn [app mapM].
  - now rewrite Hv.
  - rewrite Hb; cbn [bind]. now rewrite IH.
Qed.

(** X14.  [polygon_to_spherical] stops at the first vertex that cannot be
    converted: when the vertices before it are pairs and its own arity
    is neither 2 nor 3, the call raises the [ValueError] carrying that
    arity, whatever follows, and no polygon is returned. *)
Theorem polygon_first_invalid_vertex
  (pre post : list (list Z)) (v : list Z) (cp : CartesianPolygon)
  (Hcp : CartesianPolygon_init (pre ++ v :: post) = Ok cp)
  (Hpre : Forall (fun u => List.length u = 2%nat) pre)
  (Hnot2 : List.length v <> 2%nat) (Hnot3 : List.length v <> 3%nat) :
  polygon_to_spherical cp = Raise (ValueError (BadDimension (List.length v))).
Proof.
  unfold CartesianPolygon_init in Hcp.
  destruct (negb _); [discriminate |]. injection Hcp as <-.
  unfold polygon_to_spherical; cbn [cp_contour].
  rewrite mapM_first_error with (e := ValueError (BadDimension (List.length v))).
  - reflexivity.
  - eapply Forall_impl; [| exact Hpre].
    intros [| a [| b [| ? ?]]] Hu; try discriminate.
    destruct (convert_point_pair_ok (IZR a) (IZR b)) as (x & y & z & H).
    now exists [x; y; z].
  - rewrite <- (length_map IZR v) in Hnot2, Hnot3 |- *.
    now apply convert_point_bad_arity.
Qed.

Lemma polygon_first_invalid_vertex_witness :
  polygon_to_spherical
    (mk_CartesianPolygon
       [[100; 100]; [80; 150; 3; 4]; [50; 75]; [90]]%Z 4)
  = Raise (ValueError (BadDimension 4)).
Proof.
  apply (polygon_first_invalid_vertex
           [[100; 100]]%Z [[50; 75]; [90]]%Z [80; 150; 3; 4]%Z).
  - reflexivity.
  - repeat constructor.
  - simpl; lia.
  - simpl; lia.
Defined.

(** X15.  Every vertex of a converted polygon lies on the unit sphere:
    for every accepted polygon whose vertices are pairs,
    [polygon_to_spherical] returns a polygon whose vertices all have 3
    coordinates and squared norm 1. *)
Theorem polygon_vertices_on_sphere
  (contour : list (list Z)) (cp : CartesianPolygon)
  (Hcp : CartesianPolygon_init contour = Ok cp)
  (Hpairs : Forall (fun v => List.length v = 2%nat) contour) :
  exists sp,
    polygon_to_spherical cp = Ok sp /\
    Forall (fun s => List.length s = 3%nat /\ sq_norm s = 1) (sp_contour sp).
Proof.
  unfold CartesianPolygon_init in Hcp.
  destruct (Nat.leb MIN_POLY_LEN (List.length contour)) eqn:Hlen;
    [| discriminate].
  cbn [negb] in Hcp. injection Hcp as <-.
  set (g := fun point : list Z => convert_point (map IZR point)).
  assert (Hconv : Forall (fun v => exists s, g v = Ok s /\
                                   List.length s = 3%nat /\ sq_norm s = 1)
                         contour).
  { eapply Forall_impl; [| exact Hpairs].
    intros [| a [| b [| ? ?]]] Hv; try discriminate.
    apply convert_point_pair_on_sphere. }
  destruct (mapM_total g contour) as [sc Hsc].
  { eapply Forall_impl; [| exact Hconv]. intros v (s & Hs & _). now exists s. }
  pose proof (proj1 (mapM_Forall2 g contour sc) Hsc) as HF.
  pose proof (Forall2_length HF) as HL.
  exists (mk_SphericalPolygon sc (List.length sc)).
  unfold polygon_to_spherical; cbn [cp_contour].
  fold g. rewrite Hsc; cbn [bind].
  unfold SphericalPolygon_init. rewrite <- HL, Hlen; cbn [negb].
  split; [now rewrite HL |]. cbn [sp_contour].
  clear Hsc HL Hlen Hpairs.
  induction HF as [| v s l l' Hvs _ IH]; constructor.
  - inversion Hconv as [| ? ? (s' & Hs' & Hprop) _]; subst.
    rewrite Hvs in Hs'. now injection Hs' as <-.
  - apply IH. now inversion Hconv.
Qed.

Lemma polygon_vertices_on_sphere_witness :
  exists sp,
    polygon_to_spherical (mk_CartesianPolygon main_contour 4) = Ok sp /\
    Forall (fun s => List.length s = 3%nat /\ sq_norm s = 1) (sp_contour sp).
Proof.
  apply (polygon_vertices_on_sphere main_contour).
  - reflexivity.
  - unfold main_contour. repeat constructor.
Defined.

(** * The round trip pixel -> sphere -> pixel *)

(** ** In binary64 arithmetic, next to the principal point *)




(** ** On the integer pixels of the frame *)


